(** * FastAPI project scaffold: request pipeline, error translation, tokens

    A shallow embedding of the Python sources

      - [app/core/exceptions.py]   (error taxonomy, exception handlers),
      - [app/core/middleware.py]   (request logging, security headers, CORS),
      - [app/main.py]              (application factory),
      - [app/utils/security.py]    (JWT issuance and verification),
      - [app/utils/dependencies.py] (pagination parameters),

    together with models of the parts of Starlette/FastAPI and python-jose
    that these sources call.  Python dictionaries are finite maps, Python
    integers are [Z], exceptions are values of a sum type, and effectful
    code (clock, uuid generator, logger) runs in a small state-and-exception
    monad. *)

From stdpp Require Import gmap strings list fin_maps pretty.
From Stdlib Require Import ZArith Lia PrimFloat.

#[local] Set Warnings "-register-all".
#[local] Open Scope string_scope.
#[local] Open Scope list_scope.
#[local] Open Scope Z_scope.

(** ** Python values *)

(** JSON-representable Python values: what [json.dumps] accepts and
    [json.loads] returns.  Numbers are integers; dictionaries have string
    keys. *)
Inductive json : Type :=
| JNull
| JBool (b : bool)
| JInt (n : Z)
| JStr (s : string)
| JList (l : list json)
| JDict (d : gmap string json).

(** A value stored in a claims dictionary handed to the token encoder:
    either JSON-representable or a [datetime] (naive UTC, microseconds
    since the epoch). *)
Inductive pyval : Type :=
| PJson (j : json)
| PDatetime (us : Z).

(** [datetime.timedelta]: a whole number of microseconds. *)
Definition timedelta := Z.

Definition timedelta_of_seconds (s : Z) : timedelta := s * 1000000.
Definition timedelta_of_minutes (m : Z) : timedelta := m * 60 * 1000000.

(** [calendar.timegm(d.utctimetuple())]: whole seconds since the epoch,
    the microsecond field dropped. *)
Definition timegm (us : Z) : Z := us `div` 1000000.

(** Truthiness of a [timedelta]: false exactly for the zero duration. *)
Definition timedelta_bool (d : timedelta) : bool := negb (d =? 0).

(** Python's [str()] on floats and on JSON values, which the sources use
    in f-strings and header values; left uninterpreted. *)
Record PyRuntime : Type := {
  str_float : float -> string;
  str_json : json -> string;
}.

(** ASCII lower-casing, as [str.lower] acts on header names. *)
Definition ascii_lower (c : Ascii.ascii) : Ascii.ascii :=
  let n := Ascii.nat_of_ascii c in
  if (Nat.leb 65 n && Nat.leb n 90)%bool
  then Ascii.ascii_of_nat (n + 32)%nat else c.

Fixpoint lower (s : string) : string :=
  match s with
  | EmptyString => EmptyString
  | String c s' => String (ascii_lower c) (lower s')
  end.

(** ** HTTP status constants ([fastapi.status]) *)

Module status.
Definition HTTP_401_UNAUTHORIZED : Z := 401.
Definition HTTP_403_FORBIDDEN : Z := 403.
Definition HTTP_404_NOT_FOUND : Z := 404.
Definition HTTP_422_UNPROCESSABLE_ENTITY : Z := 422.
Definition HTTP_500_INTERNAL_SERVER_ERROR : Z := 500.
End status.

(** ** Exception classes *)

(** The classes that occur in the sources and in the libraries they call.
    [cOther name] stands for any further subclass of [Exception]
    ([RuntimeError], [KeyError], ...). *)
Inductive exc_class : Type :=
| cObject
| cBaseException
| cException
| cAppException
| cValidationException
| cNotFoundException
| cUnauthorizedException
| cForbiddenException
| cStarletteHTTPException
| cFastAPIHTTPException
| cFastAPIValidationException
| cRequestValidationError
| cJWTError
| cExpiredSignatureError
| cJWTClaimsError
| cOther (name : string).

#[global] Instance exc_class_eq_dec : EqDecision exc_class.
Proof. solve_decision. Defined.

(** Direct base class. *)
Definition base (c : exc_class) : option exc_class :=
  match c with
  | cObject => None
  | cBaseException => Some cObject
  | cException => Some cBaseException
  | cAppException => Some cException
  | cValidationException | cNotFoundException
  | cUnauthorizedException | cForbiddenException => Some cAppException
  | cStarletteHTTPException => Some cException
  | cFastAPIHTTPException => Some cStarletteHTTPException
  | cFastAPIValidationException => Some cException
  | cRequestValidationError => Some cFastAPIValidationException
  | cJWTError => Some cException
  | cExpiredSignatureError | cJWTClaimsError => Some cJWTError
  | cOther _ => Some cException
  end.

(** Height of a class in the hierarchy; the fuel for [mro_from]. *)
Definition depth (c : exc_class) : nat :=
  match c with
  | cObject => 0
  | cBaseException => 1
  | cException => 2
  | cAppException | cStarletteHTTPException | cFastAPIValidationException
  | cJWTError | cOther _ => 3
  | _ => 4
  end.

Fixpoint mro_from (fuel : nat) (c : exc_class) : list exc_class :=
  c :: match fuel with
       | O => []
       | S fuel' => match base c with
                    | Some b => mro_from fuel' b
                    | None => []
                    end
       end.

(** [cls.__mro__]: the class followed by its ancestors, nearest first. *)
Definition mro (c : exc_class) : list exc_class := mro_from (depth c) c.

(** [issubclass(c, d)]. *)
Definition issubclass (c d : exc_class) : bool := bool_decide (d ∈ mro c).

(** ** [app/core/exceptions.py]: the error taxonomy *)

(** Which class of the [AppException] family an instance belongs to. *)
Inductive app_kind : Type :=
| KApp | KValidation | KNotFound | KUnauthorized | KForbidden.

(** An instance of [AppException] or of one of its subclasses, with the
    three attributes set by [AppException.__init__].  [details] is
    restricted to JSON-representable values. *)
Record AppException : Type := {
  kind : app_kind;
  message : string;
  status_code : Z;
  details : gmap string json;
}.

(** [details or {}]: [None] and the empty dictionary are both falsy. *)
Definition or_empty (details : option (gmap string json)) : gmap string json :=
  match details with
  | Some d => if decide (d = ∅) then ∅ else d
  | None => ∅
  end.

(** [AppException.__init__(self, message, status_code=500, details=None)],
    run on an instance of class [k]. *)
Definition AppException_init (k : app_kind) (message : string)
    (status_code : option Z) (details : option (gmap string json)) : AppException :=
  {| kind := k;
     message := message;
     status_code := default status.HTTP_500_INTERNAL_SERVER_ERROR status_code;
     details := or_empty details |}.

Definition new_AppException (message : string) (status_code : option Z)
    (details : option (gmap string json)) : AppException :=
  AppException_init KApp message status_code details.

Definition ValidationException (message : string)
    (details : option (gmap string json)) : AppException :=
  AppException_init KValidation message
    (Some status.HTTP_422_UNPROCESSABLE_ENTITY) details.

Definition NotFoundException (message : option string) : AppException :=
  AppException_init KNotFound (default "Resource not found" message)
    (Some status.HTTP_404_NOT_FOUND) None.

Definition UnauthorizedException (message : option string) : AppException :=
  AppException_init KUnauthorized (default "Unauthorized" message)
    (Some status.HTTP_401_UNAUTHORIZED) None.

Definition ForbiddenException (message : option string) : AppException :=
  AppException_init KForbidden (default "Forbidden" message)
    (Some status.HTTP_403_FORBIDDEN) None.

Definition app_class (k : app_kind) : exc_class :=
  match k with
  | KApp => cAppException
  | KValidation => cValidationException
  | KNotFound => cNotFoundException
  | KUnauthorized => cUnauthorizedException
  | KForbidden => cForbiddenException
  end.

(** Which of python-jose's JWT errors. *)
Inductive jose_kind : Type := JoseJWTError | JoseExpiredSignature | JoseJWTClaims.

(** Raised exceptions.  Every value is an instance of [Exception]. *)
Inductive exn : Type :=
| EApp (e : AppException)
| EHTTP (fastapi : bool) (status_code : Z) (detail : json)
| ERequestValidation (errors : list json)
| EJose (k : jose_kind) (msg : string)
| EOther (name : string) (msg : string).

(** [type(exc)]. *)
Definition class_of (exc : exn) : exc_class :=
  match exc with
  | EApp e => app_class (kind e)
  | EHTTP true _ _ => cFastAPIHTTPException
  | EHTTP false _ _ => cStarletteHTTPException
  | ERequestValidation _ => cRequestValidationError
  | EJose JoseJWTError _ => cJWTError
  | EJose JoseExpiredSignature _ => cExpiredSignatureError
  | EJose JoseJWTClaims _ => cJWTClaimsError
  | EOther name _ => cOther name
  end.

Definition isinstance (exc : exn) (c : exc_class) : bool :=
  issubclass (class_of exc) c.

(** ** HTTP messages *)

(** A multi-valued header list, names in lower case, as Starlette's
    [Headers]/[MutableHeaders] keep it. *)
Definition Headers := list (string * string).

(** [Headers.get(key)]: the first value stored under [key.lower()]. *)
Fixpoint headers_get (key : string) (h : Headers) : option string :=
  match h with
  | [] => None
  | (k, v) :: t => if String.eqb k (lower key) then Some v else headers_get key t
  end.

(** [key in headers]. *)
Definition headers_contains (key : string) (h : Headers) : bool :=
  bool_decide (is_Some (headers_get key h)).

(** [MutableHeaders.__setitem__]: the first entry of that name is
    overwritten and the later ones are deleted; without one, the entry is
    appended. *)
Fixpoint headers_set (key value : string) (h : Headers) : Headers :=
  match h with
  | [] => [(lower key, value)]
  | (k, v) :: t =>
      if String.eqb k (lower key)
      then (lower key, value) :: List.filter (fun kv => negb (String.eqb kv.1 (lower key))) t
      else (k, v) :: headers_set key value t
  end.

Record Request : Type := {
  method : string;
  url : string;
  req_headers : Headers;
  client : option string;            (* [request.client.host] *)
  state_request_id : option string;  (* [request.state.request_id] *)
}.

(** Response bodies: rendered JSON content, plain text, the pages that
    the framework or [main.py] generate, and the traceback page of
    Starlette's debug mode. *)
Inductive Body : Type :=
| JSONBody (content : json)
| TextBody (text : string)
| DocsBody (page : string) (openapi_url : option string)
| TracebackBody (exc : exn).

Record Response : Type := {
  resp_status_code : Z;
  resp_headers : Headers;
  resp_body : Body;
}.

(** [response.headers[key] = value]. *)
Definition set_header (key value : string) (r : Response) : Response :=
  {| resp_status_code := resp_status_code r;
     resp_headers := headers_set key value (resp_headers r);
     resp_body := resp_body r |}.

(** [JSONResponse(status_code=..., content=...)].  The [content-length]
    header, a function of the rendered bytes, is left out. *)
Definition JSONResponse (status_code : Z) (content : json) : Response :=
  {| resp_status_code := status_code;
     resp_headers := [("content-type", "application/json")];
     resp_body := JSONBody content |}.

Definition PlainTextResponse (text : string) (status_code : Z) (headers : Headers) : Response :=
  {| resp_status_code := status_code;
     resp_headers := headers ++ [("content-type", "text/plain; charset=utf-8")];
     resp_body := TextBody text |}.

Definition HTMLResponse (content : Body) : Response :=
  {| resp_status_code := 200;
     resp_headers := [("content-type", "text/html; charset=utf-8")];
     resp_body := content |}.

(** ** Effects: clock, uuid generator, log *)

Inductive log_level : Type := INFO | ERROR.

Inductive log_value : Type :=
| LNone
| LStr (s : string)
| LInt (n : Z)
| LFloat (f : float)
| LDict (d : gmap string json).

Record LogRecord : Type := {
  log_logger : string;
  log_level_of : log_level;
  log_msg : string;
  log_extra : list (string * log_value);
  log_exc_info : option exn;
}.

(** The state the request pipeline reads and writes: the successive
    results of [str(uuid.uuid4())] and of [time.time()], and the log
    records emitted so far (oldest first). *)
Record World : Type := {
  uuids : nat -> string;
  uuid_calls : nat;
  clock : nat -> float;
  clock_calls : nat;
  log : list LogRecord;
}.

(** A computation that may raise; the state survives a raise, as the log
    written before a Python exception does. *)
Definition IO (A : Type) : Type := World -> (exn + A) * World.

Definition ret {A} (a : A) : IO A := fun w => (inr a, w).

Definition bind {A B} (c : IO A) (k : A -> IO B) : IO B :=
  fun w => match c w with
           | (inl e, w') => (inl e, w')
           | (inr a, w') => k a w'
           end.

Definition raise {A} (e : exn) : IO A := fun w => (inl e, w).

(** [try: c  except Exception as exc: h exc]. *)
Definition try_except {A} (c : IO A) (h : exn -> IO A) : IO A :=
  fun w => match c w with
           | (inl e, w') => h e w'
           | (inr a, w') => (inr a, w')
           end.

Declare Scope io_scope.
Delimit Scope io_scope with io.
Notation "x <- c ;; k" := (bind c (fun x => k))
  (at level 100, c at next level, right associativity) : io_scope.
Notation "c ;;; k" := (bind c (fun _ => k))
  (at level 100, right associativity) : io_scope.
#[local] Open Scope io_scope.

(** [str(uuid.uuid4())]. *)
Definition uuid4_str : IO string :=
  fun w => (inr (uuids w (uuid_calls w)),
            {| uuids := uuids w; uuid_calls := S (uuid_calls w);
               clock := clock w; clock_calls := clock_calls w; log := log w |}).

(** [time.time()]. *)
Definition time_time : IO float :=
  fun w => (inr (clock w (clock_calls w)),
            {| uuids := uuids w; uuid_calls := uuid_calls w;
               clock := clock w; clock_calls := S (clock_calls w); log := log w |}).

Definition emit (r : LogRecord) : IO unit :=
  fun w => (inr tt,
            {| uuids := uuids w; uuid_calls := uuid_calls w;
               clock := clock w; clock_calls := clock_calls w;
               log := log w ++ [r] |}).

Definition logger_info (name msg : string) (extra : list (string * log_value)) : IO unit :=
  emit {| log_logger := name; log_level_of := INFO; log_msg := msg;
          log_extra := extra; log_exc_info := None |}.

Definition logger_error (name msg : string) (extra : list (string * log_value)) : IO unit :=
  emit {| log_logger := name; log_level_of := ERROR; log_msg := msg;
          log_extra := extra; log_exc_info := None |}.

(** [logger.exception(msg)] inside a handler for [exc]: an ERROR record
    carrying the exception with its traceback. *)
Definition logger_exception (name msg : string) (exc : exn) : IO unit :=
  emit {| log_logger := name; log_level_of := ERROR; log_msg := msg;
          log_extra := []; log_exc_info := Some exc |}.

(** [str(exc)]. *)
Definition exn_str (rt : PyRuntime) (exc : exn) : string :=
  match exc with
  | EApp e => message e
  | EHTTP _ code detail => pretty code +:+ ": " +:+ str_json rt detail
  | ERequestValidation errors => str_json rt (JList errors)
  | EJose _ msg => msg
  | EOther _ msg => msg
  end.

(** ** The application object (Starlette / FastAPI) *)

(** An ASGI application, seen as a function from the request to the
    response it sends or the exception it lets escape. *)
Definition App : Type := Request -> IO Response.

(** An exception handler: a Python function, with its [__name__]. *)
Record Handler : Type := {
  handler_name : string;
  handler_call : Request -> exn -> IO Response;
}.

(** A middleware class with its constructor arguments bound: instantiated
    on the application it wraps. *)
Record Middleware : Type := {
  middleware_name : string;
  middleware_wrap : App -> App;
}.

Record Route : Type := {
  route_path : string;
  route_methods : list string;
  route_endpoint : App;
}.

(** Keys of [app.exception_handlers]: an exception class or a status code. *)
Inductive handler_key : Type :=
| ForClass (c : exc_class)
| ForStatus (code : Z).

#[global] Instance handler_key_eq_dec : EqDecision handler_key.
Proof. solve_decision. Defined.

(** Insertion-ordered dictionaries with decidable keys. *)
Fixpoint dict_get {K V} `{EqDecision K} (k : K) (d : list (K * V)) : option V :=
  match d with
  | [] => None
  | (k', v) :: t => if decide (k' = k) then Some v else dict_get k t
  end.

(** [d[k] = v]. *)
Fixpoint dict_assign {K V} `{EqDecision K} (k : K) (v : V) (d : list (K * V)) : list (K * V) :=
  match d with
  | [] => [(k, v)]
  | (k', v') :: t =>
      if decide (k' = k) then (k, v) :: t else (k', v') :: dict_assign k v t
  end.

Record FastAPI : Type := {
  debug : bool;
  openapi_url : option string;
  docs_url : option string;
  redoc_url : option string;
  user_middleware : list Middleware;
  exception_handlers : list (handler_key * Handler);
  routes : list Route;
}.

(** [Starlette.add_middleware]: [self.user_middleware.insert(0, ...)]. *)
Definition add_middleware (m : Middleware) (app : FastAPI) : FastAPI :=
  {| debug := debug app; openapi_url := openapi_url app;
     docs_url := docs_url app; redoc_url := redoc_url app;
     user_middleware := m :: user_middleware app;
     exception_handlers := exception_handlers app;
     routes := routes app |}.

(** [Starlette.add_exception_handler]:
    [self.exception_handlers[exc_class_or_status_code] = handler]. *)
Definition add_exception_handler (key : handler_key) (h : Handler) (app : FastAPI) : FastAPI :=
  {| debug := debug app; openapi_url := openapi_url app;
     docs_url := docs_url app; redoc_url := redoc_url app;
     user_middleware := user_middleware app;
     exception_handlers := dict_assign key h (exception_handlers app);
     routes := routes app |}.

(** [@app.get(path)] and [include_router]: routes are appended. *)
Definition add_routes (rs : list Route) (app : FastAPI) : FastAPI :=
  {| debug := debug app; openapi_url := openapi_url app;
     docs_url := docs_url app; redoc_url := redoc_url app;
     user_middleware := user_middleware app;
     exception_handlers := exception_handlers app;
     routes := routes app ++ rs |}.

(** A [GET] route; Starlette adds [HEAD] to its methods. *)
Definition get_route (path : string) (endpoint : App) : Route :=
  {| route_path := path; route_methods := ["GET"; "HEAD"]; route_endpoint := endpoint |}.

(** An endpoint returning a dictionary, which FastAPI sends as a 200 JSON
    response. *)
Definition returns_json (content : json) : App :=
  fun _ => ret (JSONResponse 200 content).

Definition with_prefix (prefix : string) (r : Route) : Route :=
  {| route_path := prefix +:+ route_path r;
     route_methods := route_methods r;
     route_endpoint := route_endpoint r |}.

(** The router: the first route matching path and method handles the
    request; a route matching the path only gives 405, no route 404, both
    raised as [HTTPException].  Path parameters and the trailing-slash
    redirect are not modelled. *)
Fixpoint route_request (rs : list Route) (partial : bool) (request : Request) : IO Response :=
  match rs with
  | [] =>
      if partial
      then raise (EHTTP false 405 (JStr "Method Not Allowed"))
      else raise (EHTTP false 404 (JStr "Not Found"))
  | r :: rs' =>
      if String.eqb (route_path r) (url request)
      then if bool_decide (method request ∈ route_methods r)
           then route_endpoint r request
           else route_request rs' true request
      else route_request rs' partial request
  end.

Definition router (app : FastAPI) : App := route_request (routes app) false.

Section Framework.
Variable rt : PyRuntime.

(** [exc.detail] used as response text. *)
Definition detail_text (detail : json) : string :=
  match detail with
  | JStr s => s
  | _ => str_json rt detail
  end.

(** Starlette's built-in handler for [HTTPException]. *)
Definition starlette_http_exception : Handler :=
  {| handler_name := "http_exception";
     handler_call := fun _ exc =>
       match exc with
       | EHTTP _ code detail => ret (PlainTextResponse (detail_text detail) code [])
       | _ => raise (EOther "AttributeError" "status_code")
       end |}.

(** FastAPI's default handlers, installed by [FastAPI.__init__]. *)
Definition fastapi_http_exception_handler : Handler :=
  {| handler_name := "fastapi.exception_handlers.http_exception_handler";
     handler_call := fun _ exc =>
       match exc with
       | EHTTP _ code detail => ret (JSONResponse code (JDict {[ "detail" := detail ]}))
       | _ => raise (EOther "AttributeError" "status_code")
       end |}.

Definition fastapi_request_validation_exception_handler : Handler :=
  {| handler_name := "fastapi.exception_handlers.request_validation_exception_handler";
     handler_call := fun _ exc =>
       match exc with
       | ERequestValidation errors =>
           ret (JSONResponse 422 (JDict {[ "detail" := JList errors ]}))
       | _ => raise (EOther "AttributeError" "errors")
       end |}.

(** Routes that [FastAPI.setup] adds for the schema and the interactive
    documentation. *)
Definition docs_routes (openapi docs redoc : option string) : list Route :=
  match openapi with
  | None => []
  | Some o =>
      [get_route o (fun _ => ret (HTMLResponse (DocsBody "openapi" openapi)))]
      ++ match docs with
         | Some d => [get_route d (fun _ => ret (HTMLResponse (DocsBody "swagger" openapi)))]
         | None => []
         end
      ++ match redoc with
         | Some r => [get_route r (fun _ => ret (HTMLResponse (DocsBody "redoc" openapi)))]
         | None => []
         end
  end.

(** [FastAPI(openapi_url=..., docs_url=..., redoc_url=...)]: [debug]
    keeps its default [False], and the default handlers for
    [HTTPException] and [RequestValidationError] are installed (the one
    for WebSocket validation errors is left out: the model has no
    WebSocket traffic). *)
Definition FastAPI_init (openapi docs redoc : option string) : FastAPI :=
  {| debug := false;
     openapi_url := openapi; docs_url := docs; redoc_url := redoc;
     user_middleware := [];
     exception_handlers :=
       [(ForClass cStarletteHTTPException, fastapi_http_exception_handler);
        (ForClass cRequestValidationError, fastapi_request_validation_exception_handler)];
     routes := docs_routes openapi docs redoc |}.

(** *** [starlette.middleware.exceptions.ExceptionMiddleware] *)

Definition exc_status_code (exc : exn) : option Z :=
  match exc with
  | EHTTP _ code _ => Some code
  | _ => None
  end.

(** [_lookup_exception_handler]: the handler of the first class of
    [type(exc).__mro__] that has one. *)
Fixpoint first_handler (classes : list exc_class)
    (handlers : list (handler_key * Handler)) : option Handler :=
  match classes with
  | [] => None
  | c :: cs =>
      match dict_get (ForClass c) handlers with
      | Some h => Some h
      | None => first_handler cs handlers
      end
  end.

Definition lookup_exception_handler (handlers : list (handler_key * Handler))
    (exc : exn) : option Handler :=
  first_handler (mro (class_of exc)) handlers.

(** The handler table of the middleware: Starlette's own entry for
    [HTTPException], then the application's entries assigned in order. *)
Definition exception_table (handlers : list (handler_key * Handler))
    : list (handler_key * Handler) :=
  fold_left (fun tbl kv => dict_assign kv.1 kv.2 tbl) handlers
    [(ForClass cStarletteHTTPException, starlette_http_exception)].

(** The handler chosen for [exc]: for an [HTTPException], one registered
    for its status code comes first; then the class lookup. *)
Definition select_handler (table : list (handler_key * Handler)) (exc : exn)
    : option Handler :=
  let by_status :=
    if isinstance exc cStarletteHTTPException
    then code ← exc_status_code exc; dict_get (ForStatus code) table
    else None in
  match by_status with
  | Some h => Some h
  | None => lookup_exception_handler table exc
  end.

Definition ExceptionMiddleware (handlers : list (handler_key * Handler)) : Middleware :=
  {| middleware_name := "ExceptionMiddleware";
     middleware_wrap := fun app request =>
       try_except (app request) (fun exc =>
         match select_handler (exception_table handlers) exc with
         | None => raise exc
         | Some h => handler_call h request exc
         end) |}.

(** *** [starlette.middleware.errors.ServerErrorMiddleware]

    The outermost layer.  After sending its response it re-raises the
    exception to the server, which only logs it; the value returned here
    is the response the client receives. *)
Definition ServerErrorMiddleware (handler : option Handler) (debug : bool) : Middleware :=
  {| middleware_name := "ServerErrorMiddleware";
     middleware_wrap := fun app request =>
       try_except (app request) (fun exc =>
         if debug then
           ret {| resp_status_code := 500;
                  resp_headers := [("content-type", "text/plain; charset=utf-8")];
                  resp_body := TracebackBody exc |}
         else match handler with
              | None => ret (PlainTextResponse "Internal Server Error" 500 [])
              | Some h => handler_call h request exc
              end) |}.

(** *** [starlette.middleware.cors.CORSMiddleware]

    Control flow as in Starlette; of the headers only
    [Access-Control-Allow-Origin] and [Access-Control-Allow-Credentials]
    are modelled. *)
Definition is_allowed_origin (allow_origins : list string) (origin : string) : bool :=
  bool_decide ("*" ∈ allow_origins) || bool_decide (origin ∈ allow_origins).

Definition cors_headers (allow_origins : list string) (allow_credentials : bool)
    (origin : string) (h : Headers) : Headers :=
  let h := if bool_decide ("*" ∈ allow_origins)
           then headers_set "Access-Control-Allow-Origin" "*" h
           else if bool_decide (origin ∈ allow_origins)
                then headers_set "Access-Control-Allow-Origin" origin h
                else h in
  if allow_credentials
  then headers_set "Access-Control-Allow-Credentials" "true" h
  else h.

Definition preflight_response (allow_origins : list string) (allow_credentials : bool)
    (origin : string) : Response :=
  if is_allowed_origin allow_origins origin
  then PlainTextResponse "OK" 200
         (headers_set "Access-Control-Allow-Origin" origin
            (if allow_credentials then [("access-control-allow-credentials", "true")] else []))
  else PlainTextResponse "Disallowed CORS origin" 400 [].

(** A preflight request: [OPTIONS] with an [Origin] and an
    [Access-Control-Request-Method] header. *)
Definition is_preflight (request : Request) : bool :=
  bool_decide (is_Some (headers_get "origin" (req_headers request)))
  && String.eqb (method request) "OPTIONS"
  && headers_contains "access-control-request-method" (req_headers request).

Definition CORSMiddleware (allow_origins : list string) (allow_credentials : bool)
    (allow_methods allow_headers : list string) : Middleware :=
  {| middleware_name := "CORSMiddleware";
     middleware_wrap := fun app request =>
       match headers_get "origin" (req_headers request) with
       | None => app request
       | Some origin =>
           if is_preflight request
           then ret (preflight_response allow_origins allow_credentials origin)
           else
             response <- app request ;;
             ret {| resp_status_code := resp_status_code response;
                    resp_headers := cors_headers allow_origins allow_credentials origin
                                      (resp_headers response);
                    resp_body := resp_body response |}
       end |}.

(** [BaseHTTPMiddleware]: [dispatch(request, call_next)], where
    [call_next] runs the wrapped application and re-raises what it
    raises. *)
Definition BaseHTTPMiddleware (name : string)
    (dispatch : Request -> App -> IO Response) : Middleware :=
  {| middleware_name := name;
     middleware_wrap := fun app request => dispatch request app |}.

(** *** [Starlette.build_middleware_stack] *)

(** The handler registered for [500] or [Exception] goes to
    [ServerErrorMiddleware]; all the others to [ExceptionMiddleware]. *)
Definition is_error_key (k : handler_key) : bool :=
  bool_decide (k = ForStatus 500) || bool_decide (k = ForClass cException).

Definition error_handler (app : FastAPI) : option Handler :=
  fold_left (fun acc kv => if is_error_key kv.1 then Some kv.2 else acc)
    (exception_handlers app) None.

Definition other_handlers (app : FastAPI) : list (handler_key * Handler) :=
  List.filter (fun kv => negb (is_error_key kv.1)) (exception_handlers app).

(** The layers, outermost first. *)
Definition middleware_layers (app : FastAPI) : list Middleware :=
  [ServerErrorMiddleware (error_handler app) (debug app)]
  ++ user_middleware app
  ++ [ExceptionMiddleware (other_handlers app)].

(** [for cls, args, kwargs in reversed(middleware): app = cls(app, ...)]. *)
Definition build_middleware_stack (app : FastAPI) : App :=
  fold_right middleware_wrap (router app) (middleware_layers app).

End Framework.

(** ** [app/core/config.py]: settings

    The fields hold validated values; [cors_origins] is the list produced
    by the [parse_cors_origins] validator. *)
Record Settings : Type := {
  PROJECT_NAME : string;
  VERSION : string;
  DESCRIPTION : string;
  ENVIRONMENT : string;
  API_V1_STR : string;
  settings_debug : bool;
  secret_key : string;
  algorithm : string;
  access_token_expire_minutes : Z;
  cors_origins : list string;
}.

(** [Settings()] with no environment overrides. *)
Definition default_settings : Settings :=
  {| PROJECT_NAME := "FastAPI App";
     VERSION := "0.1.0";
     DESCRIPTION := "FastAPI приложение";
     ENVIRONMENT := "development";
     API_V1_STR := "/api/v1";
     settings_debug := false;
     secret_key := "your-secret-key-change-in-production";
     algorithm := "HS256";
     access_token_expire_minutes := 30;
     cors_origins := ["*"] |}.

Section Application.
Variable rt : PyRuntime.

(** ** [app/core/exceptions.py]: the handlers *)

Definition exceptions_logger : string := "app.core.exceptions".

Definition app_exception_handler : Handler :=
  {| handler_name := "app_exception_handler";
     handler_call := fun request exc =>
       match exc with
       | EApp e =>
           logger_error exceptions_logger ("App exception: " +:+ message e)
             [("details", LDict (details e))] ;;;
           ret (JSONResponse (status_code e)
                  (JDict {[ "error" := JBool true;
                            "message" := JStr (message e);
                            "details" := JDict (details e) ]}))
       | _ => raise (EOther "AttributeError" "message")
       end |}.

Definition http_exception_handler : Handler :=
  {| handler_name := "http_exception_handler";
     handler_call := fun request exc =>
       match exc with
       | EHTTP _ code detail =>
           logger_error exceptions_logger
             ("HTTP exception: " +:+ detail_text rt detail) [] ;;;
           ret (JSONResponse code
                  (JDict {[ "error" := JBool true;
                            "message" := detail;
                            "details" := JDict ∅ ]}))
       | _ => raise (EOther "AttributeError" "detail")
       end |}.

Definition validation_exception_handler : Handler :=
  {| handler_name := "validation_exception_handler";
     handler_call := fun request exc =>
       match exc with
       | ERequestValidation errors =>
           logger_error exceptions_logger
             ("Validation exception: " +:+ str_json rt (JList errors)) [] ;;;
           ret (JSONResponse status.HTTP_422_UNPROCESSABLE_ENTITY
                  (JDict {[ "error" := JBool true;
                            "message" := JStr "Validation error";
                            "details" := JDict {[ "validation_errors" := JList errors ]} ]}))
       | _ => raise (EOther "AttributeError" "errors")
       end |}.

Definition general_exception_handler : Handler :=
  {| handler_name := "general_exception_handler";
     handler_call := fun request exc =>
       logger_exception exceptions_logger "Unhandled exception occurred" exc ;;;
       ret (JSONResponse status.HTTP_500_INTERNAL_SERVER_ERROR
              (JDict {[ "error" := JBool true;
                        "message" := JStr "Internal server error";
                        "details" := JDict ∅ ]})) |}.

Definition setup_exception_handlers (app : FastAPI) : FastAPI :=
  let app := add_exception_handler (ForClass cAppException) app_exception_handler app in
  let app := add_exception_handler (ForClass cStarletteHTTPException) http_exception_handler app in
  let app := add_exception_handler (ForClass cRequestValidationError) validation_exception_handler app in
  add_exception_handler (ForClass cException) general_exception_handler app.

(** ** [app/core/middleware.py] *)

Definition middleware_logger : string := "app.middleware".

Definition set_request_id (request_id : string) (request : Request) : Request :=
  {| method := method request; url := url request;
     req_headers := req_headers request; client := client request;
     state_request_id := Some request_id |}.

Definition opt_str (o : option string) : log_value :=
  match o with
  | Some s => LStr s
  | None => LNone
  end.

(** [RequestLoggingMiddleware.dispatch]. *)
Definition RequestLoggingMiddleware_dispatch (request : Request) (call_next : App)
    : IO Response :=
  request_id <- uuid4_str ;;
  let request := set_request_id request_id request in
  start_time <- time_time ;;
  logger_info middleware_logger
    ("Request started: " +:+ method request +:+ " " +:+ url request)
    [("request_id", LStr request_id); ("method", LStr (method request));
     ("url", LStr (url request)); ("client_ip", opt_str (client request))] ;;;
  response <- try_except (call_next request) (fun exc =>
    now <- time_time ;;
    let process_time := PrimFloat.sub now start_time in
    logger_error middleware_logger
      ("Request failed: " +:+ method request +:+ " " +:+ url request
         +:+ " - " +:+ exn_str rt exc)
      [("request_id", LStr request_id); ("process_time", LFloat process_time);
       ("error", LStr (exn_str rt exc))] ;;;
    raise exc) ;;
  now <- time_time ;;
  let process_time := PrimFloat.sub now start_time in
  logger_info middleware_logger
    ("Request completed: " +:+ method request +:+ " " +:+ url request
       +:+ " - " +:+ pretty (resp_status_code response))
    [("request_id", LStr request_id);
     ("status_code", LInt (resp_status_code response));
     ("process_time", LFloat process_time)] ;;;
  let response := set_header "X-Request-ID" request_id response in
  let response := set_header "X-Process-Time" (str_float rt process_time) response in
  ret response.

Definition RequestLoggingMiddleware : Middleware :=
  BaseHTTPMiddleware "RequestLoggingMiddleware" RequestLoggingMiddleware_dispatch.

(** [SecurityHeadersMiddleware.dispatch]. *)
Definition SecurityHeadersMiddleware_dispatch (request : Request) (call_next : App)
    : IO Response :=
  response <- call_next request ;;
  let response := set_header "X-Content-Type-Options" "nosniff" response in
  let response := set_header "X-Frame-Options" "DENY" response in
  let response := set_header "X-XSS-Protection" "1; mode=block" response in
  let response := set_header "Referrer-Policy" "strict-origin-when-cross-origin" response in
  ret response.

Definition SecurityHeadersMiddleware : Middleware :=
  BaseHTTPMiddleware "SecurityHeadersMiddleware" SecurityHeadersMiddleware_dispatch.

Definition setup_cors_middleware (settings : Settings) (app : FastAPI) : FastAPI :=
  add_middleware (CORSMiddleware (cors_origins settings) true ["*"] ["*"]) app.

Definition setup_middleware (settings : Settings) (app : FastAPI) : IO FastAPI :=
  let app := setup_cors_middleware settings app in
  let app := add_middleware SecurityHeadersMiddleware app in
  let app := add_middleware RequestLoggingMiddleware app in
  logger_info middleware_logger "Middleware configured" [] ;;;
  ret app.

(** ** [app/main.py] *)

Definition root (settings : Settings) : App :=
  returns_json
    (JDict {[ "message" := JStr "API работает!";
              "version" := JStr (VERSION settings);
              "documentation" :=
                JDict {[ "swagger" := JStr "/docs"; "redoc" := JStr "/redoc";
                         "scalar" := JStr "/scalar"; "rapidoc" := JStr "/rapidoc" ]};
              "api" := JStr (API_V1_STR settings) ]}).

Definition health_check (settings : Settings) : App :=
  returns_json
    (JDict {[ "status" := JStr "healthy"; "version" := JStr (VERSION settings) ]}).

Definition scalar_html (settings : Settings) (app : FastAPI) : App :=
  fun _ => ret (HTMLResponse (DocsBody (PROJECT_NAME settings) (openapi_url app))).

(** [create_app()], with the routes of [app.api.v1.router.api_router]
    as a parameter. *)
Definition create_app (settings : Settings) (api_router : list Route) : IO FastAPI :=
  let dev := negb (String.eqb (ENVIRONMENT settings) "production") in
  let app := FastAPI_init
               (if dev then Some "/openapi.json" else None)
               (if dev then Some "/docs" else None)
               (if dev then Some "/redoc" else None) in
  app <- setup_middleware settings app ;;
  let app := setup_exception_handlers app in
  let app := add_routes [get_route "/" (root settings)] app in
  let app := add_routes [get_route "/health" (health_check settings)] app in
  let app := add_routes (map (with_prefix (API_V1_STR settings)) api_router) app in
  let app := if dev
             then add_routes [get_route "/scalar" (scalar_html settings app)] app
             else app in
  ret app.

(** One request served by the application that [create_app] built when
    the module was imported in world [w0]. *)
Definition serve (settings : Settings) (api_router : list Route) (w0 : World)
    (request : Request) : IO Response :=
  match create_app settings api_router w0 with
  | (inr app, _) => build_middleware_stack rt app request
  | (inl e, _) => raise e
  end.

End Application.

(** ** python-jose: [jose.jwt] *)

(** A token string, seen symbolically: either the compact serialisation
    of a JWS whose header names [alg], whose payload is the JSON text of
    [payload], and whose signature was made with [key]; or any other
    string.  A well-formed token carrying a wrong signature is one signed
    with another key. *)
Inductive token : Type :=
| Signed (alg : string) (key : string) (payload : json)
| Malformed (s : string).

(** [jose.constants.ALGORITHMS.SUPPORTED]. *)
Definition ALGORITHMS_SUPPORTED : list string :=
  ["HS256"; "HS384"; "HS512"; "RS256"; "RS384"; "RS512"; "ES256"; "ES384"; "ES512"].

(** The result of code that returns or raises, without other effects. *)
Definition result (A : Type) : Type := (exn + A)%type.

(** [jwt.encode] first turns a [datetime] under [exp], [iat] or [nbf]
    into whole seconds since the epoch. *)
Definition normalize_time_claim (k : string) (claims : gmap string pyval) : gmap string pyval :=
  match claims !! k with
  | Some (PDatetime us) => <[k := PJson (JInt (timegm us))]> claims
  | _ => claims
  end.

Definition normalize_time_claims (claims : gmap string pyval) : gmap string pyval :=
  normalize_time_claim "nbf" (normalize_time_claim "iat" (normalize_time_claim "exp" claims)).

Definition to_json (v : pyval) : option json :=
  match v with
  | PJson j => Some j
  | PDatetime _ => None
  end.

Definition is_json (v : pyval) : bool :=
  match v with
  | PJson _ => true
  | PDatetime _ => false
  end.

(** [json.dumps(claims)]: defined when every value is JSON-representable. *)
Definition json_dumps (claims : gmap string pyval) : option (gmap string json) :=
  if bool_decide (map_Forall (fun _ v => is_json v = true) claims)
  then Some (omap to_json claims)
  else None.

(** [jwt.encode(claims, key, algorithm=...)]. *)
Definition jwt_encode (claims : gmap string pyval) (key alg : string) : result token :=
  let claims := normalize_time_claims claims in
  if bool_decide (alg ∈ ALGORITHMS_SUPPORTED)
  then match json_dumps claims with
       | Some payload => inr (Signed alg key (JDict payload))
       | None => inl (EOther "TypeError" "Object of type datetime is not JSON serializable")
       end
  else inl (EOther "JWSError" ("Algorithm " +:+ alg +:+ " not supported."))
.

Definition claims_error (msg : string) : exn := EJose JoseJWTClaims msg.

(** A registered claim that must be a string when present ([sub], [jti]). *)
Definition validate_string_claim (k msg : string) (claims : gmap string json) : option exn :=
  match claims !! k with
  | None | Some (JStr _) => None
  | Some _ => Some (claims_error msg)
  end.

(** [_validate_iat]. *)
Definition validate_iat (claims : gmap string json) : option exn :=
  match claims !! "iat" with
  | None | Some (JInt _) => None
  | Some _ => Some (claims_error "Issued At claim (iat) must be an integer.")
  end.

(** [_validate_nbf], with [now] in whole seconds and no leeway. *)
Definition validate_nbf (now : Z) (claims : gmap string json) : option exn :=
  match claims !! "nbf" with
  | None => None
  | Some (JInt nbf) =>
      if now <? nbf then Some (claims_error "The token is not yet valid (nbf)") else None
  | Some _ => Some (claims_error "Not Before claim (nbf) must be an integer.")
  end.

(** [_validate_exp], with [now] in whole seconds and no leeway. *)
Definition validate_exp (now : Z) (claims : gmap string json) : option exn :=
  match claims !! "exp" with
  | None => None
  | Some (JInt exp) =>
      if exp <? now then Some (EJose JoseExpiredSignature "Signature has expired.") else None
  | Some _ => Some (claims_error "Expiration Time claim (exp) must be an integer.")
  end.

(** [_validate_aud] with no expected audience: any [aud] claim fails. *)
Definition validate_aud (claims : gmap string json) : option exn :=
  match claims !! "aud" with
  | None => None
  | Some _ => Some (claims_error "Invalid audience")
  end.

(** [_validate_at_hash] with no access token: any [at_hash] claim fails. *)
Definition validate_at_hash (claims : gmap string json) : option exn :=
  match claims !! "at_hash" with
  | None => None
  | Some _ => Some (claims_error "No access_token provided to compare against at_hash claim.")
  end.

(** The first failing check, in python-jose's order. *)
Fixpoint first_error (checks : list (option exn)) : option exn :=
  match checks with
  | [] => None
  | Some e :: _ => Some e
  | None :: rest => first_error rest
  end.

(** [_validate_claims] under the default options, called without
    audience, issuer, subject or access token. *)
Definition validate_claims (now : Z) (claims : gmap string json) : option exn :=
  first_error
    [validate_iat claims;
     validate_nbf now claims;
     validate_exp now claims;
     validate_aud claims;
     validate_string_claim "sub" "Subject must be a string." claims;
     validate_string_claim "jti" "JWT ID must be a string." claims;
     validate_at_hash claims].

Definition jwt_error (msg : string) : exn := EJose JoseJWTError msg.

(** [jwt.decode(token, key, algorithms=[...])] at the time [now]
    (microseconds since the epoch, as [datetime.utcnow()] reads it). *)
Definition jwt_decode (t : token) (key : string) (algorithms : list string) (now : Z)
    : result (gmap string json) :=
  match t with
  | Malformed _ => inl (jwt_error "Not enough segments")
  | Signed alg k payload =>
      if negb (bool_decide (alg ∈ algorithms))
      then inl (jwt_error "The specified alg value is not allowed")
      else if negb (bool_decide (alg ∈ ALGORITHMS_SUPPORTED))
      then inl (jwt_error ("Algorithm " +:+ alg +:+ " not supported."))
      else if negb (String.eqb k key)
      then inl (jwt_error "Signature verification failed.")
      else match payload with
           | JDict claims =>
               match validate_claims (timegm now) claims with
               | Some e => inl e
               | None => inr claims
               end
           | _ => inl (jwt_error "Invalid payload string: must be a json object")
           end
  end.

(** ** [app/utils/security.py] *)

(** [try: body  except JWTError: raise replacement]. *)
Definition except_JWTError {A} (body : result A) (replacement : exn) : result A :=
  match body with
  | inr a => inr a
  | inl exc => if isinstance exc cJWTError then inl replacement else inl exc
  end.

(** Truthiness of an [Optional[timedelta]]. *)
Definition optional_timedelta_bool (d : option timedelta) : bool :=
  match d with
  | Some d => timedelta_bool d
  | None => false
  end.

(** [create_access_token(data, expires_delta=None)], run when
    [datetime.utcnow()] reads [now]. *)
Definition create_access_token (settings : Settings) (now : Z)
    (data : gmap string pyval) (expires_delta : option timedelta) : result token :=
  let to_encode := data in
  let expire :=
    if optional_timedelta_bool expires_delta
    then now + default 0 expires_delta
    else now + timedelta_of_minutes (access_token_expire_minutes settings) in
  let to_encode := <["exp" := PDatetime expire]> to_encode in
  jwt_encode to_encode (secret_key settings) (algorithm settings).

(** [verify_token(token)]. *)
Definition verify_token (settings : Settings) (now : Z) (t : token)
    : result (gmap string json) :=
  except_JWTError
    (jwt_decode t (secret_key settings) [algorithm settings] now)
    (EApp (UnauthorizedException (Some "Invalid token"))).



(** ** [app/utils/dependencies.py] *)

Record HTTPAuthorizationCredentials : Type := {
  scheme : string;
  credentials : string;
}.

(** [get_current_user(credentials)]: without credentials it raises;
    otherwise it returns a fixed placeholder user. *)
Definition get_current_user (credentials : option HTTPAuthorizationCredentials)
    : result json :=
  match credentials with
  | None => inl (EApp (UnauthorizedException (Some "Authorization header required")))
  | Some _ => inr (JDict {[ "user_id" := JInt 1; "username" := JStr "test_user" ]})
  end.

Record CommonQueryParams : Type := {
  skip : Z;
  limit : Z;
  order_by : option string;
  order_desc : bool;
}.

(** [CommonQueryParams.__init__(self, skip, limit, order_by, order_desc)]. *)
Definition CommonQueryParams_init (skip limit : Z) (order_by : option string)
    (order_desc : bool) : CommonQueryParams :=
  {| skip := skip;
     limit := Z.min limit 1000;
     order_by := order_by;
     order_desc := order_desc |}.

(** The signature's defaults: [skip=0, limit=100, order_by=None,
    order_desc=False]. *)
Definition CommonQueryParams_default : CommonQueryParams :=
  CommonQueryParams_init 0 100 None false.

(** * Vocabulary of the statements *)

Definition app_handlers (rt : PyRuntime) : list (handler_key * Handler) :=
  [(ForClass cStarletteHTTPException, http_exception_handler rt);
   (ForClass cRequestValidationError, validation_exception_handler rt);
   (ForClass cAppException, app_exception_handler)].

Definition cors_of (settings : Settings) : Middleware :=
  CORSMiddleware (cors_origins settings) true ["*"] ["*"].

(** The request and the world in which [RequestLoggingMiddleware.dispatch]
    calls [call_next]: the correlation id is drawn and stored, the clock
    is read, and the start of the request is logged. *)
Definition arrival (request : Request) (w : World) : Request * World :=
  let request' := set_request_id (uuids w (uuid_calls w)) request in
  (request',
   snd ((uuid4_str ;;; time_time ;;;
         logger_info middleware_logger
           ("Request started: " +:+ method request' +:+ " " +:+ url request')
           [("request_id", LStr (uuids w (uuid_calls w)));
            ("method", LStr (method request'));
            ("url", LStr (url request'));
            ("client_ip", opt_str (client request'))]) w)).

(** The headers stamped by the two middleware classes. *)
Definition stamp (request_id process_time : string) (r : Response) : Response :=
  set_header "X-Process-Time" process_time (set_header "X-Request-ID" request_id r).

Definition secure (r : Response) : Response :=
  set_header "Referrer-Policy" "strict-origin-when-cross-origin"
    (set_header "X-XSS-Protection" "1; mode=block"
       (set_header "X-Frame-Options" "DENY"
          (set_header "X-Content-Type-Options" "nosniff" r))).

(** The catch-all response. *)
Definition internal_error_response : Response :=
  JSONResponse 500
    (JDict {[ "error" := JBool true;
              "message" := JStr "Internal server error";
              "details" := JDict ∅ ]}).

(** The application below the two [BaseHTTPMiddleware] layers. *)
Definition inner (rt : PyRuntime) (settings : Settings) (app : FastAPI) : App :=
  middleware_wrap (cors_of settings)
    (middleware_wrap (ExceptionMiddleware rt (app_handlers rt)) (router app)).

Definition error_envelope (message : json) (details : gmap string json) : json :=
  JDict {[ "error" := JBool true; "message" := message; "details" := JDict details ]}.

(** The response the three class handlers build; [None] for the
    exceptions they leave to the catch-all. *)
Definition translation (exc : exn) : option Response :=
  match exc with
  | EApp e => Some (JSONResponse (status_code e) (error_envelope (JStr (message e)) (details e)))
  | EHTTP _ code detail => Some (JSONResponse code (error_envelope detail ∅))
  | ERequestValidation errors =>
      Some (JSONResponse 422
              (error_envelope (JStr "Validation error") {[ "validation_errors" := JList errors ]}))
  | EJose _ _ | EOther _ _ => None
  end.

Definition with_cors (settings : Settings) (request : Request) (r : Response) : Response :=
  match headers_get "origin" (req_headers request) with
  | None => r
  | Some origin =>
      {| resp_status_code := resp_status_code r;
         resp_headers := cors_headers (cors_origins settings) true origin (resp_headers r);
         resp_body := resp_body r |}
  end.

(** An exception outside the three handled families. *)
Definition unclassified (exc : exn) : Prop :=
  isinstance exc cAppException = false /\
  isinstance exc cStarletteHTTPException = false /\
  isinstance exc cRequestValidationError = false.

(** The six headers that the two [BaseHTTPMiddleware] classes stamp. *)
Definition carries_core_headers (request_id : string) (h : Headers) : Prop :=
  headers_get "X-Request-ID" h = Some request_id /\
  is_Some (headers_get "X-Process-Time" h) /\
  headers_get "X-Content-Type-Options" h = Some "nosniff" /\
  headers_get "X-Frame-Options" h = Some "DENY" /\
  headers_get "X-XSS-Protection" h = Some "1; mode=block" /\
  headers_get "Referrer-Policy" h = Some "strict-origin-when-cross-origin".






Definition example_runtime : PyRuntime :=
  {| str_float := fun _ => "0.25"; str_json := fun _ => "{...}" |}.

Definition example_world : World :=
  {| uuids := fun _ => "5c1f6a52-0d5e-4c0a-9d57-3f1f0a1b2c3d";
     uuid_calls := 0;
     clock := fun n => match n with O => 10.5%float | _ => 10.75%float end;
     clock_calls := 0;
     log := [] |}.

Definition example_request (m path : string) : Request :=
  {| method := m; url := path; req_headers := []; client := Some "127.0.0.1";
     state_request_id := None |}.

(** A route whose endpoint raises what [get_async_session] raises when
    no database is configured. *)
Definition failing_route : Route :=
  {| route_path := "/items"; route_methods := ["GET"];
     route_endpoint := fun _ => raise (EOther "RuntimeError" "Database not configured") |}.








(** * Further code of the repository *)

(** ** [app/core/config.py]: the [cors_origins] validator *)

(** ASCII whitespace, as [str.isspace] sees it.  Strings are taken to be
    ASCII text. *)
Definition is_space (c : Ascii.ascii) : bool :=
  let n := Ascii.nat_of_ascii c in
  (Nat.leb 9 n && Nat.leb n 13) || (Nat.leb 28 n && Nat.leb n 32).

(** [str.lstrip()]. *)
Fixpoint lstrip (s : string) : string :=
  match s with
  | EmptyString => EmptyString
  | String c s' => if is_space c then lstrip s' else s
  end.

(** [str.rstrip()]. *)
Fixpoint rstrip (s : string) : string :=
  match s with
  | EmptyString => EmptyString
  | String c s' =>
      match rstrip s' with
      | EmptyString => if is_space c then EmptyString else String c EmptyString
      | r => String c r
      end
  end.

(** [str.strip()]. *)
Definition strip (s : string) : string := lstrip (rstrip s).

(** The comma, code 44. *)
Definition comma : Ascii.ascii := Ascii.ascii_of_nat 44.

(** [s.split(",")]: the pieces between commas; never an empty list. *)
Fixpoint split_comma (s : string) : list string :=
  match s with
  | EmptyString => [EmptyString]
  | String c s' =>
      if Ascii.eqb c comma
      then EmptyString :: split_comma s'
      else match split_comma s' with
           | piece :: pieces => String c piece :: pieces
           | [] => [String c EmptyString]
           end
  end.

(** Truthiness of a string: non-empty. *)
Definition str_bool (s : string) : bool :=
  match s with
  | EmptyString => false
  | String _ _ => true
  end.

(** The raw value of [cors_origins]: a string (from the environment) or
    a list. *)
Inductive cors_value : Type :=
| CorsStr (v : string)
| CorsList (v : list string).

(** [Settings.parse_cors_origins(v)]. *)
Definition parse_cors_origins (v : cors_value) : list string :=
  match v with
  | CorsStr v =>
      if String.eqb v "*"
      then ["*"]
      else map strip (List.filter (fun origin => str_bool (strip origin)) (split_comma v))
  | CorsList v => v
  end.

(** [c in s] for a one-character [c]. *)
Fixpoint contains_char (c : Ascii.ascii) (s : string) : bool :=
  match s with
  | EmptyString => false
  | String c' s' => Ascii.eqb c' c || contains_char c s'
  end.

(** [",".join(l)]. *)
Definition join_comma (l : list string) : string := String.concat "," l.

(** An origin as the validator leaves it: not empty, no surrounding
    whitespace, no comma. *)
Definition clean_origin (o : string) : Prop :=
  o <> "" /\ strip o = o /\ contains_char comma o = false.


(** ** [app/utils/security.py]: password strength *)

(** A Python string as its code points.  The classification of the
    code points above ASCII comes from the Unicode database, left
    uninterpreted. *)
Record Unicode : Type := {
  unicode_isupper : N -> bool;
  unicode_islower : N -> bool;
  unicode_isdigit : N -> bool;
}.

Definition in_range (lo hi c : N) : bool := (N.leb lo c && N.leb c hi)%bool.

(** [c.isupper()], [c.islower()], [c.isdigit()] for a one-character
    string. *)
Definition isupper (u : Unicode) (c : N) : bool :=
  if N.ltb c 128 then in_range 65 90 c else unicode_isupper u c.

Definition islower (u : Unicode) (c : N) : bool :=
  if N.ltb c 128 then in_range 97 122 c else unicode_islower u c.

Definition isdigit (u : Unicode) (c : N) : bool :=
  if N.ltb c 128 then in_range 48 57 c else unicode_isdigit u c.

(** The code points of an ASCII literal. *)
Definition code_points (s : string) : list N :=
  map Ascii.N_of_ascii (String.list_ascii_of_string s).

Definition SPECIAL_CHARACTERS : list N := code_points "!@#$%^&*()_+-=[]{}|;:,.<>?".

(** [c in "!@#$%^&*()_+-=[]{}|;:,.<>?"]. *)
Definition is_special (c : N) : bool := bool_decide (c ∈ SPECIAL_CHARACTERS).

(** [SecurityUtils.is_strong_password(password)]. *)
Definition is_strong_password (u : Unicode) (password : list N) : bool :=
  if (Z.of_nat (length password) <? 8)
  then false
  else
    let has_upper := existsb (isupper u) password in
    let has_lower := existsb (islower u) password in
    let has_digit := existsb (isdigit u) password in
    let has_special := existsb is_special password in
    (has_upper && has_lower && has_digit && has_special)%bool.

(** ASCII letters and digits. *)
Definition is_ascii_alnum (c : N) : bool :=
  (in_range 65 90 c || in_range 97 122 c || in_range 48 57 c)%bool.

(** ** [app/utils/dependencies.py]: the current user *)

(** [s.partition(" ")]: the text before the first space and the text
    after it; all of [s] and the empty string when [s] has no space. *)
Fixpoint partition_space (s : string) : string * string :=
  match s with
  | EmptyString => ("", "")
  | String c s' =>
      if Ascii.eqb c (Ascii.ascii_of_nat 32)
      then ("", s')
      else (String c (partition_space s').1, (partition_space s').2)
  end.

(** [fastapi.security.utils.get_authorization_scheme_param]. *)
Definition get_authorization_scheme_param (authorization : option string)
    : string * string :=
  match authorization with
  | None | Some "" => ("", "")
  | Some value => partition_space value
  end.

(** Truthiness of a string. *)
Definition str_truthy (s : string) : bool := negb (String.eqb s "").

(** [security = HTTPBearer(auto_error=False)], called on a request:
    the credentials of a [Bearer] authorization header, [None] when the
    header is missing, has no token, or names another scheme. *)
Definition security (request : Request) : option HTTPAuthorizationCredentials :=
  let authorization := headers_get "Authorization" (req_headers request) in
  let scheme_param := get_authorization_scheme_param authorization in
  if negb (str_truthy (default "" authorization)
           && str_truthy scheme_param.1 && str_truthy scheme_param.2)
  then None
  else if negb (String.eqb (lower scheme_param.1) "bearer")
       then None
       else Some {| scheme := scheme_param.1; credentials := scheme_param.2 |}.

(** [get_current_active_user(current_user)]. *)
Definition get_current_active_user (current_user : json) : json := current_user.

(** An endpoint declared with
    [current_user: dict = Depends(get_current_active_user)]: FastAPI
    solves the chain of dependencies [security], [get_current_user],
    [get_current_active_user] on the request before it calls the
    endpoint, and what a dependency raises is raised in place of the
    call. *)
Definition Depends_get_current_active_user (endpoint : json -> App) : App :=
  fun request =>
    match get_current_user (security request) with
    | inl exc => raise exc
    | inr current_user => endpoint (get_current_active_user current_user) request
    end.

(** A route of the API router that needs the current user. *)
Definition profile_route : Route :=
  {| route_path := "/me"; route_methods := ["GET"];
     route_endpoint := Depends_get_current_active_user (fun user => returns_json user) |}.

Definition with_authorization (value : string) (request : Request) : Request :=
  {| method := method request; url := url request;
     req_headers := ("authorization", value) :: req_headers request;
     client := client request; state_request_id := state_request_id request |}.

(** ** [app/core/database.py] *)

(** What a suspended generator can have raised into it, and what can
    leave it: an [Exception], or a [BaseException] that is not one
    ([GeneratorExit], [asyncio.CancelledError], [KeyboardInterrupt]). *)
Inductive raised : Type :=
| Exc (exc : exn)
| BaseExc (name : string).

(** The calls made on an [AsyncSession]. *)
Inductive session_op : Type := OpCommit | OpRollback | OpClose.

#[global] Instance session_op_eq_dec : EqDecision session_op.
Proof. solve_decision. Defined.

(** A session: whether a call raises, given the calls made before it. *)
Record AsyncSession : Type := {
  session_raises : list session_op -> session_op -> option raised;
}.

(** A block of statements run on the calls made so far: the exception
    that leaves it, if any, and the calls made after it. *)
Definition block : Type := list session_op -> option raised * list session_op.

Definition pass : block := fun ops => (None, ops).

Definition raise_ (e : raised) : block := fun ops => (Some e, ops).

(** [await session.op()]. *)
Definition await (session : AsyncSession) (op : session_op) : block :=
  fun ops => (session_raises session ops op, ops ++ [op]).

(** [first; second]. *)
Definition then_ (first second : block) : block :=
  fun ops => match first ops with
             | (None, ops') => second ops'
             | (Some e, ops') => (Some e, ops')
             end.

(** [try: body  except Exception: handler], the handler ending in a bare
    [raise] or raising itself. *)
Definition try_except_Exception (body : block) (handler : exn -> block) : block :=
  fun ops => match body ops with
             | (Some (Exc exc), ops') => handler exc ops'
             | (o, ops') => (o, ops')
             end.

(** [try: body  finally: final]: what [final] raises replaces what
    [body] raised. *)
Definition try_finally (body final : block) : block :=
  fun ops => match body ops with
             | (o, ops') =>
                 match final ops' with
                 | (Some e, ops'') => (Some e, ops'')
                 | (None, ops'') => (o, ops'')
                 end
             end.

(** [async with session: body]: [AsyncSession.__aexit__] closes the
    session and suppresses nothing. *)
Definition async_with (session : AsyncSession) (body : block) : block :=
  try_finally body (await session OpClose).

(** How a generator suspended at a [yield] is continued: asked for its
    next item, or with an exception thrown in ([athrow]), or closed
    ([aclose], which throws [GeneratorExit] in). *)
Inductive signal : Type :=
| Next
| Throw (e : raised)
| Aclose.

Definition yield_ (sg : signal) : block :=
  match sg with
  | Next => pass
  | Throw e => raise_ e
  | Aclose => raise_ (BaseExc "GeneratorExit")
  end.

(** [get_async_session()] up to its [yield]: the session it yields, or
    the error it raises.  [async_session_maker] is the module's global,
    [None] when no database URL is configured. *)
Definition get_async_session_start (async_session_maker : option (unit -> AsyncSession))
    : raised + AsyncSession :=
  match async_session_maker with
  | None => inl (Exc (EOther "RuntimeError" "Database not configured"))
  | Some maker => inr (maker tt)
  end.

(** [get_async_session()] from its [yield] on.  The result [None] is the
    generator running to its end. *)
Definition get_async_session_resume (session : AsyncSession) (sg : signal) : block :=
  async_with session
    (try_finally
       (try_except_Exception (yield_ sg)
          (fun exc => then_ (await session OpRollback) (raise_ (Exc exc))))
       (await session OpClose)).

(** ** [app/utils/dependencies.py]: [get_db] *)

(** The session generator that [get_db] iterates over: still suspended
    at its [yield], or finished. *)
Inductive inner_generator : Type :=
| Suspended (session : AsyncSession)
| Finished.

(** [get_db()] up to its [yield]: the [async for] asks
    [get_async_session()] for its first item and yields it. *)
Definition get_db_start (async_session_maker : option (unit -> AsyncSession))
    : raised + AsyncSession * inner_generator :=
  match get_async_session_start async_session_maker with
  | inl e => inl e
  | inr session => inr (session, Suspended session)
  end.

(** [get_db()] from its [yield] on.  Asked for its next item, it asks
    the session generator for the next one, which ends the loop.  An
    exception thrown in leaves the loop body and [get_db]; the
    [async for] statement does not pass it on to the session generator,
    which stays suspended. *)
Definition get_db_resume (session : AsyncSession) (sg : signal)
    : list session_op -> option raised * list session_op * inner_generator :=
  fun ops =>
    match sg with
    | Next => (get_async_session_resume session Next ops, Finished)
    | _ => (yield_ sg ops, Suspended session)
    end.

(** A generator that was dropped while suspended is closed by the event
    loop's finalizer ([aclose]). *)
Definition finalize (g : inner_generator) : block :=
  match g with
  | Suspended session => get_async_session_resume session Aclose
  | Finished => pass
  end.

Definition healthy (session : AsyncSession) : Prop :=
  forall ops op, session_raises session ops op = None.

Definition healthy_session : AsyncSession :=
  {| session_raises := fun _ _ => None |}.

(** ** Vocabulary of the further statements *)





(** * Properties *)

#[local] Open Scope io_scope.

(** ** Header lists *)

Lemma headers_get_filter_ne key k0 (h : Headers) :
  lower key <> k0 ->
  headers_get key (List.filter (fun kv => negb (String.eqb kv.1 k0)) h) = headers_get key h.
Proof.
  intros Hne. induction h as [|[k v] t IH]; simpl; [reflexivity|].
  destruct (String.eqb_spec k k0) as [->|Hk]; simpl.
  - rewrite IH. destruct (String.eqb_spec k0 (lower key)); congruence.
  - rewrite IH. reflexivity.
Qed.

Lemma headers_get_set_eq key key' value (h : Headers) :
  lower key = lower key' ->
  headers_get key (headers_set key' value h) = Some value.
Proof.
  intros Heq. induction h as [|[k v] t IH]; simpl.
  - rewrite Heq, String.eqb_refl. reflexivity.
  - destruct (String.eqb_spec k (lower key')) as [->|Hk]; simpl.
    + rewrite Heq, String.eqb_refl. reflexivity.
    + destruct (String.eqb_spec k (lower key)); [congruence|exact IH].
Qed.

Lemma headers_get_set_ne key key' value (h : Headers) :
  lower key <> lower key' ->
  headers_get key (headers_set key' value h) = headers_get key h.
Proof.
  intros Hne. induction h as [|[k v] t IH]; simpl.
  - destruct (String.eqb_spec (lower key') (lower key)); congruence.
  - destruct (String.eqb_spec k (lower key')) as [->|Hk]; simpl.
    + destruct (String.eqb_spec (lower key') (lower key)); [congruence|].
      apply headers_get_filter_ne. exact Hne.
    + rewrite IH. reflexivity.
Qed.

(** ** The configured application *)

Lemma create_app_inv rt settings api w0 app w1 :
  create_app rt settings api w0 = (inr app, w1) ->
  debug app = false /\
  user_middleware app =
    [RequestLoggingMiddleware rt; SecurityHeadersMiddleware; cors_of settings] /\
  exception_handlers app =
    app_handlers rt ++ [(ForClass cException, general_exception_handler)].
Proof.
  unfold create_app, setup_middleware, bind, logger_info, emit, ret.
  destruct (negb (String.eqb (ENVIRONMENT settings) "production"));
    intros [= <- <-]; repeat split; reflexivity.
Qed.


Lemma build_middleware_stack_eq rt settings api w0 app w1 :
  create_app rt settings api w0 = (inr app, w1) ->
  build_middleware_stack rt app =
    middleware_wrap (ServerErrorMiddleware (Some general_exception_handler) false)
      (middleware_wrap (RequestLoggingMiddleware rt)
         (middleware_wrap SecurityHeadersMiddleware
            (middleware_wrap (cors_of settings)
               (middleware_wrap (ExceptionMiddleware rt (app_handlers rt)) (router app))))).
Proof.
  intros H. apply create_app_inv in H as (Hd & Hu & He).
  unfold build_middleware_stack, middleware_layers, error_handler, other_handlers.
  rewrite Hd, Hu, He. reflexivity.
Qed.

Lemma RequestLogging_dispatch_returns rt request call_next w r w2 :
  call_next (arrival request w).1 (arrival request w).2 = (inr r, w2) ->
  exists process_time w',
    RequestLoggingMiddleware_dispatch rt request call_next w
    = (inr (stamp (uuids w (uuid_calls w)) process_time r), w').
Proof.
  intros H. unfold RequestLoggingMiddleware_dispatch, arrival in *.
  unfold bind, try_except, uuid4_str, time_time, logger_info, emit, ret in *.
  simpl in *. rewrite H. simpl. eauto.
Qed.

Lemma RequestLogging_dispatch_raises rt request call_next w exc w2 :
  call_next (arrival request w).1 (arrival request w).2 = (inl exc, w2) ->
  exists w',
    RequestLoggingMiddleware_dispatch rt request call_next w = (inl exc, w')
    /\ exists r, log w' = log w2 ++ [r] /\ log_level_of r = ERROR.
Proof.
  intros H. unfold RequestLoggingMiddleware_dispatch, arrival in *.
  unfold bind, try_except, uuid4_str, time_time, logger_error, logger_info, emit, ret, raise in *.
  simpl in *. rewrite H. simpl. eauto.
Qed.

Lemma SecurityHeaders_dispatch_eq request call_next w :
  SecurityHeadersMiddleware_dispatch request call_next w =
  match call_next request w with
  | (inr r, w2) => (inr (secure r), w2)
  | (inl exc, w2) => (inl exc, w2)
  end.
Proof.
  unfold SecurityHeadersMiddleware_dispatch, bind, ret.
  destruct (call_next request w) as [[exc|r] w2]; reflexivity.
Qed.

Lemma serve_inner rt settings api w0 app w1 request w :
  create_app rt settings api w0 = (inr app, w1) ->
  match inner rt settings app (arrival request w).1 (arrival request w).2 with
  | (inr r, _) =>
      exists process_time w',
        serve rt settings api w0 request w
        = (inr (stamp (uuids w (uuid_calls w)) process_time (secure r)), w')
  | (inl exc, _) =>
      exists w', serve rt settings api w0 request w = (inr internal_error_response, w')
                 /\ exists r, last (log w') = Some r /\ log_exc_info r = Some exc
  end.
Proof.
  intros H. unfold serve. rewrite H.
  rewrite (build_middleware_stack_eq _ _ _ _ _ _ H). fold (inner rt settings app).
  simpl middleware_wrap.
  destruct (inner rt settings app (arrival request w).1 (arrival request w).2)
    as [[exc|r] w2] eqn:Hin.
  - destruct (RequestLogging_dispatch_raises rt request
                (fun request0 => SecurityHeadersMiddleware_dispatch request0 (inner rt settings app))
                w exc w2) as (w' & Hrl & _).
    { rewrite SecurityHeaders_dispatch_eq, Hin. reflexivity. }
    unfold try_except. rewrite Hrl. simpl.
    unfold bind, logger_exception, emit, ret. simpl. eexists. split; [reflexivity|].
    simpl. rewrite last_snoc. eauto.
  - destruct (RequestLogging_dispatch_returns rt request
                (fun request0 => SecurityHeadersMiddleware_dispatch request0 (inner rt settings app))
                w (secure r) w2) as (pt & w' & Hrl).
    { rewrite SecurityHeaders_dispatch_eq, Hin. reflexivity. }
    unfold try_except. rewrite Hrl. eauto.
Qed.

(** ** Handler selection *)

Lemma select_handler_eq rt exc :
  select_handler (exception_table rt (app_handlers rt)) exc =
  match exc with
  | EApp _ => Some app_exception_handler
  | EHTTP _ _ _ => Some (http_exception_handler rt)
  | ERequestValidation _ => Some (validation_exception_handler rt)
  | EJose _ _ | EOther _ _ => None
  end.
Proof. destruct exc as [[[] ? ? ?]|[] ? ?|?|[] ?|?]; reflexivity. Qed.

Lemma ExceptionMiddleware_raises rt (app : App) request w exc w2 :
  app request w = (inl exc, w2) ->
  match translation exc with
  | Some r =>
      exists w3, middleware_wrap (ExceptionMiddleware rt (app_handlers rt)) app request w
                 = (inr r, w3)
  | None =>
      middleware_wrap (ExceptionMiddleware rt (app_handlers rt)) app request w = (inl exc, w2)
  end.
Proof.
  intros H. simpl. unfold try_except. rewrite H, select_handler_eq.
  destruct exc; simpl; unfold bind, logger_error, emit, ret; simpl; eauto.
Qed.

Lemma ExceptionMiddleware_returns rt (app : App) request w r w2 :
  app request w = (inr r, w2) ->
  middleware_wrap (ExceptionMiddleware rt (app_handlers rt)) app request w = (inr r, w2).
Proof. intros H. simpl. unfold try_except. rewrite H. reflexivity. Qed.

(** ** The CORS layer *)

Lemma with_cors_status settings request r :
  resp_status_code (with_cors settings request r) = resp_status_code r.
Proof. unfold with_cors. destruct (headers_get _ _); reflexivity. Qed.

Lemma with_cors_body settings request r :
  resp_body (with_cors settings request r) = resp_body r.
Proof. unfold with_cors. destruct (headers_get _ _); reflexivity. Qed.

Lemma CORS_passes settings (app : App) request w :
  is_preflight request = false ->
  middleware_wrap (cors_of settings) app request w =
  match app request w with
  | (inr r, w2) => (inr (with_cors settings request r), w2)
  | (inl exc, w2) => (inl exc, w2)
  end.
Proof.
  intros Hpf. simpl. unfold with_cors.
  destruct (headers_get "origin" (req_headers request)) as [origin|].
  - rewrite Hpf. unfold bind, ret. destruct (app request w) as [[exc|r] w2]; reflexivity.
  - destruct (app request w) as [[exc|r] w2]; reflexivity.
Qed.


Lemma is_preflight_arrival request w :
  is_preflight (arrival request w).1 = is_preflight request.
Proof. reflexivity. Qed.

Lemma translation_None exc : translation exc = None <-> unclassified exc.
Proof.
  unfold unclassified.
  destruct exc as [[[] ? ? ?]|[] ? ?|?|[] ?|?]; simpl; split;
    try discriminate; try (intros (? & ? & ?); discriminate); intros _;
    repeat split; reflexivity.
Qed.

(** What the application below the security-headers layer does with
    the outcome of the router. *)
Lemma inner_cases rt settings app request w :
  is_preflight request = false ->
  inner rt settings app request w =
  match router app request w with
  | (inr r, w2) => (inr (with_cors settings request r), w2)
  | (inl exc, w2) =>
      match translation exc with
      | Some r => (inr (with_cors settings request r),
                   (middleware_wrap (ExceptionMiddleware rt (app_handlers rt))
                      (router app) request w).2)
      | None => (inl exc, w2)
      end
  end.
Proof.
  intros Hpf. unfold inner. rewrite CORS_passes by exact Hpf.
  destruct (router app request w) as [[exc|r] w2] eqn:Hr.
  - pose proof (ExceptionMiddleware_raises rt _ _ _ _ _ Hr) as H.
    destruct (translation exc) as [r|].
    + destruct H as (w3 & ->). reflexivity.
    + rewrite H. reflexivity.
  - rewrite (ExceptionMiddleware_returns rt _ _ _ _ _ Hr). reflexivity.
Qed.

Ltac header_get :=
  repeat first
    [ rewrite headers_get_set_eq by reflexivity
    | rewrite headers_get_set_ne by (vm_compute; discriminate) ].

Lemma stamp_secure_headers request_id process_time r :
  carries_core_headers request_id
    (resp_headers (stamp request_id process_time (secure r))).
Proof.
  unfold carries_core_headers, stamp, secure, set_header; simpl.
  repeat split; header_get; eauto.
Qed.

Lemma stamp_secure_status request_id process_time r :
  resp_status_code (stamp request_id process_time (secure r)) = resp_status_code r.
Proof. reflexivity. Qed.

Lemma stamp_secure_body request_id process_time r :
  resp_body (stamp request_id process_time (secure r)) = resp_body r.
Proof. reflexivity. Qed.


(** C2. A request whose routed handling raises an exception outside the
    three handled families is answered with exactly the catch-all
    response: status 500 and body
    [{error: true, message: "Internal server error", details: {}}].  The
    response is a constant, so nothing of the exception reaches it; the
    exception goes to the log only. *)
Theorem C2_unclassified_failure_response rt settings api w0 app w1 request w exc w_r :
  create_app rt settings api w0 = (inr app, w1) ->
  is_preflight request = false ->
  router app (arrival request w).1 (arrival request w).2 = (inl exc, w_r) ->
  unclassified exc ->
  exists w',
    serve rt settings api w0 request w = (inr internal_error_response, w') /\
    resp_status_code internal_error_response = 500 /\
    resp_body internal_error_response =
      JSONBody (JDict {[ "error" := JBool true;
                         "message" := JStr "Internal server error";
                         "details" := JDict ∅ ]}) /\
    forall request' exc' w'',
      (handler_call general_exception_handler request' exc' w'').1
      = inr internal_error_response.
Proof.
  intros Happ Hpf Hr Hu.
  pose proof (serve_inner rt settings api w0 app w1 request w Happ) as Hs.
  rewrite inner_cases, Hr in Hs by (rewrite is_preflight_arrival; exact Hpf).
  apply translation_None in Hu. rewrite Hu in Hs.
  destruct Hs as (w' & Hs & _).
  exists w'. split; [exact Hs|]. repeat split.
Qed.


(** ** Which handler answers *)




(** ** Middleware order *)

(** C5 (amended). [setup_middleware] registers CORS, then the security
    headers, then the request logger; each registration puts its
    interceptor outermost.  So the chain, outer to inner, is Request
    Logger, Security Headers, CORS: the request logger's [dispatch]
    receives the security-headers [dispatch] as [call_next], which in
    turn receives CORS, and responses and exceptions come back through
    them in the reverse order.  The first-registered interceptor (CORS)
    runs closest to the handler and the last-registered one (the request
    logger) farthest from it. *)
Theorem C5_middleware_order rt settings api w0 app w1 :
  create_app rt settings api w0 = (inr app, w1) ->
  (forall app0 w, exists w',
     setup_middleware rt settings app0 w
     = (inr (add_middleware (RequestLoggingMiddleware rt)
               (add_middleware SecurityHeadersMiddleware
                  (add_middleware (cors_of settings) app0))), w')) /\
  (forall m a, user_middleware (add_middleware m a) = m :: user_middleware a) /\
  map middleware_name (user_middleware app)
    = ["RequestLoggingMiddleware"; "SecurityHeadersMiddleware"; "CORSMiddleware"] /\
  head (user_middleware app) = Some (RequestLoggingMiddleware rt) /\
  last (user_middleware app) = Some (cors_of settings) /\
  build_middleware_stack rt app =
    middleware_wrap (ServerErrorMiddleware (Some general_exception_handler) false)
      (fun request =>
         RequestLoggingMiddleware_dispatch rt request
           (fun request =>
              SecurityHeadersMiddleware_dispatch request
                (middleware_wrap (cors_of settings)
                   (middleware_wrap (ExceptionMiddleware rt (app_handlers rt))
                      (router app))))).
Proof.
  intros Happ. split; [|split].
  - intros app0 w. unfold setup_middleware, bind, logger_info, emit, ret. eauto.
  - reflexivity.
  - rewrite (build_middleware_stack_eq _ _ _ _ _ _ Happ).
    apply create_app_inv in Happ as (_ & -> & _). repeat split.
Qed.

(** ** Concrete runs *)



Lemma C2_unclassified_failure_response_witness :
  exists w',
    serve example_runtime default_settings [failing_route] example_world
      (example_request "GET" "/api/v1/items") example_world
    = (inr internal_error_response, w').
Proof.
  destruct (C2_unclassified_failure_response example_runtime default_settings
              [failing_route] example_world _ _
              (example_request "GET" "/api/v1/items") example_world
              (EOther "RuntimeError" "Database not configured") _
              eq_refl eq_refl eq_refl (conj eq_refl (conj eq_refl eq_refl)))
    as (w' & Hs & _).
  exists w'. exact Hs.
Defined.



Lemma C5_middleware_order_witness :
  exists app w1,
    create_app example_runtime default_settings [] example_world = (inr app, w1) /\
    map middleware_name (user_middleware app)
    = ["RequestLoggingMiddleware"; "SecurityHeadersMiddleware"; "CORSMiddleware"].
Proof.
  eexists _, _. split; [reflexivity|].
  exact (proj1 (proj2 (proj2 (C5_middleware_order example_runtime default_settings []
                                example_world _ _ eq_refl)))).
Defined.

(** The scenario of an unregistered path: the router raises
    [HTTPException(404)], [http_exception_handler] builds the envelope,
    and the response leaves through the chain with the six headers. *)
Example unregistered_path_is_answered_404 :
  exists resp w',
    serve example_runtime default_settings [] example_world
      (example_request "GET" "/nowhere") example_world = (inr resp, w') /\
    resp_status_code resp = 404 /\
    resp_body resp =
      JSONBody (JDict {[ "error" := JBool true;
                         "message" := JStr "Not Found";
                         "details" := JDict ∅ ]}) /\
    headers_get "X-Frame-Options" (resp_headers resp) = Some "DENY" /\
    headers_get "X-Request-ID" (resp_headers resp)
    = Some "5c1f6a52-0d5e-4c0a-9d57-3f1f0a1b2c3d".
Proof. eexists _, _. split; [vm_compute; reflexivity|]. repeat split. Qed.

(** C5 as stated fails: the interceptor registered last by
    [setup_middleware] is the request logger, and the one closest to the
    handler is CORS, the one registered first. *)
Lemma C5_last_registered_is_outermost :
  exists app0 app w1,
    setup_middleware example_runtime default_settings app0 example_world
    = (inr (add_middleware (RequestLoggingMiddleware example_runtime) app), w1) /\
    middleware_name <$> last (user_middleware
                                (add_middleware (RequestLoggingMiddleware example_runtime) app))
    = Some "CORSMiddleware" /\
    middleware_name <$> head (user_middleware
                                (add_middleware (RequestLoggingMiddleware example_runtime) app))
    = Some "RequestLoggingMiddleware" /\
    "CORSMiddleware" <> "RequestLoggingMiddleware".
Proof.
  exists (FastAPI_init None None None). eexists _, _.
  split; [reflexivity|]. repeat split. discriminate.
Qed.

(** ** Token service *)









(** *** Verification *)




















(** Why the amended statement restricts lifetime and payload. *)

Example negative_ttl_token_is_expired :
  exists tok,
    create_access_token default_settings 1700000000500000
      {[ "sub" := PJson (JStr "alice") ]} (Some (timedelta_of_seconds (-5))) = inr tok /\
    verify_token default_settings 1700000000500000 tok
    = inl (EApp (UnauthorizedException (Some "Invalid token"))).
Proof.
  eexists. split.
  - vm_compute. reflexivity.
  - vm_compute. reflexivity.
Qed.

Example datetime_outside_time_claims_is_not_encoded :
  create_access_token default_settings 1700000000500000
    {[ "created" := PDatetime 1700000000500000 ]} None
  = inl (EOther "TypeError" "Object of type datetime is not JSON serializable").
Proof. vm_compute. reflexivity. Qed.

Example audience_claim_is_rejected :
  exists tok,
    create_access_token default_settings 1700000000500000
      {[ "aud" := PJson (JStr "web") ]} None = inr tok /\
    verify_token default_settings 1700000000500000 tok
    = inl (EApp (UnauthorizedException (Some "Invalid token"))).
Proof.
  eexists. split.
  - vm_compute. reflexivity.
  - vm_compute. reflexivity.
Qed.

(** ** Error taxonomy and pagination *)

(** C9. Each constructor of the taxonomy fixes the status code of its
    kind: 422 for [ValidationException], 404 for [NotFoundException], 401
    for [UnauthorizedException], 403 for [ForbiddenException], and 500
    for an [AppException] built without a status code. *)
Theorem C9_status_code_matches_kind :
  (forall message details,
     kind (ValidationException message details) = KValidation /\
     status_code (ValidationException message details) = 422) /\
  (forall message,
     kind (NotFoundException message) = KNotFound /\
     status_code (NotFoundException message) = 404) /\
  (forall message,
     kind (UnauthorizedException message) = KUnauthorized /\
     status_code (UnauthorizedException message) = 401) /\
  (forall message,
     kind (ForbiddenException message) = KForbidden /\
     status_code (ForbiddenException message) = 403) /\
  (forall message details,
     kind (new_AppException message None details) = KApp /\
     status_code (new_AppException message None details) = 500).
Proof. repeat split. Qed.

(** C10. [CommonQueryParams] stores [min(limit, 1000)], which never
    exceeds 1000, and stores the other three arguments unchanged. *)
Theorem C10_limit_is_capped (s l : Z) (ob : option string) (od : bool) :
  limit (CommonQueryParams_init s l ob od) = Z.min l 1000 /\
  limit (CommonQueryParams_init s l ob od) <= 1000 /\
  skip (CommonQueryParams_init s l ob od) = s /\
  order_by (CommonQueryParams_init s l ob od) = ob /\
  order_desc (CommonQueryParams_init s l ob od) = od.
Proof. simpl. repeat split. lia. Qed.

(** * Further properties *)

(** ** [app/core/config.py]: parsing of the CORS origins *)

Lemma rstrip_empty_or_ends s :
  rstrip s = "" \/ exists c r, rstrip s = String c r.
Proof. destruct (rstrip s); eauto. Qed.









Lemma str_bool_true s : str_bool s = true <-> s <> "".
Proof. destruct s; simpl; split; congruence. Qed.

Lemma split_comma_nonempty s : split_comma s <> [].
Proof.
  induction s as [|a s IH]; simpl; [discriminate|].
  destruct (Ascii.eqb a comma); [discriminate|].
  destruct (split_comma s); [contradiction|discriminate].
Qed.


Lemma split_comma_single x :
  contains_char comma x = false -> split_comma x = [x].
Proof.
  induction x as [|a x IH]; simpl; [reflexivity|].
  destruct (Ascii.eqb a comma); simpl; [discriminate|].
  intros H. rewrite (IH H). reflexivity.
Qed.

Lemma split_comma_append x rest :
  contains_char comma x = false ->
  split_comma (x +:+ String comma rest) = x :: split_comma rest.
Proof.
  induction x as [|a x IH]; intros H; [reflexivity|].
  simpl in H. apply orb_false_elim in H as [Ha Hx].
  change (split_comma (String a (x +:+ String comma rest))
          = String a x :: split_comma rest).
  cbn [split_comma]. rewrite Ha, (IH Hx). reflexivity.
Qed.

Lemma split_join l :
  l <> [] ->
  Forall (fun o => contains_char comma o = false) l ->
  split_comma (join_comma l) = l.
Proof.
  induction l as [|x l IH]; [congruence|]. intros _ Hl.
  apply Forall_cons_1 in Hl as [Hx Hl].
  destruct l as [|y l'].
  - simpl. apply split_comma_single, Hx.
  - change (join_comma (x :: y :: l')) with (x +:+ String comma (join_comma (y :: l'))).
    rewrite split_comma_append by exact Hx. rewrite IH by (congruence || exact Hl).
    reflexivity.
Qed.


(** X2. Round trip: joining well-formed origins with commas and parsing the
    result gives the origins back, in order. *)
Theorem parse_cors_origins_join l :
  Forall clean_origin l ->
  parse_cors_origins (CorsStr (join_comma l)) = l.
Proof.
  intros Hl.
  assert (Forall (fun o => contains_char comma o = false) l) as Hcomma.
  { eapply Forall_impl; [exact Hl|]. intros o (_ & _ & H). exact H. }
  assert (map strip (List.filter (fun origin => str_bool (strip origin)) l) = l) as Hid.
  { clear Hcomma. induction Hl as [|o l (Hne & Hs & _) _ IH]; [reflexivity|].
    simpl. rewrite Hs. apply str_bool_true in Hne. rewrite Hne. simpl.
    rewrite Hs, IH. reflexivity. }
  unfold parse_cors_origins.
  destruct l as [|x l']; [reflexivity|].
  destruct (String.eqb_spec (join_comma (x :: l')) "*") as [Heq|_].
  - rewrite <- (split_join (x :: l')) by (congruence || exact Hcomma).
    rewrite Heq. reflexivity.
  - rewrite split_join by (congruence || exact Hcomma). exact Hid.
Qed.

Lemma parse_cors_origins_join_witness :
  parse_cors_origins (CorsStr (join_comma ["https://a.com"; "https://b.com"]))
  = ["https://a.com"; "https://b.com"].
Proof.
  apply parse_cors_origins_join.
  repeat constructor; discriminate.
Defined.


(** ** [app/utils/security.py]: password strength *)

Lemma existsb_Permutation {A} (f : A -> bool) (l l' : list A) :
  Permutation l l' -> existsb f l = existsb f l'.
Proof.
  induction 1 as [|x l l' _ IH|x y l|l l' l'' _ IH1 _ IH2]; simpl.
  - reflexivity.
  - rewrite IH. reflexivity.
  - destruct (f x), (f y); reflexivity.
  - rewrite IH1. exact IH2.
Qed.

Lemma is_strong_password_spec u password :
  is_strong_password u password = true <->
  (8 <= length password)%nat /\
  existsb (isupper u) password = true /\
  existsb (islower u) password = true /\
  existsb (isdigit u) password = true /\
  existsb is_special password = true.
Proof.
  unfold is_strong_password.
  destruct (Z.ltb_spec (Z.of_nat (length password)) 8) as [Hlt|Hge].
  - split; [discriminate|]. intros (Hlen & _). lia.
  - rewrite !andb_true_iff. split.
    + intros [[[? ?] ?] ?]. repeat split; try assumption. lia.
    + intros (_ & ? & ? & ? & ?). repeat split; assumption.
Qed.

(** X3. A strong password stays strong when characters are added before or
    after it, and when its characters are reordered. *)
Theorem is_strong_password_extend_reorder u password :
  is_strong_password u password = true ->
  (forall more, is_strong_password u (password ++ more) = true /\
                is_strong_password u (more ++ password) = true) /\
  (forall reordered, Permutation password reordered ->
                     is_strong_password u reordered = true).
Proof.
  intros H. apply is_strong_password_spec in H as (Hlen & Hu & Hl & Hd & Hs).
  split.
  - intros more. split; apply is_strong_password_spec;
      rewrite length_app, !existsb_app, Hu, Hl, Hd, Hs, ?orb_true_r;
      (split; [lia|repeat split]).
  - intros reordered Hp. apply is_strong_password_spec.
    rewrite <- (Permutation_length Hp).
    rewrite <- !(existsb_Permutation _ _ _ Hp). repeat split; assumption.
Qed.

Lemma special_not_alnum c : is_special c = true -> is_ascii_alnum c = false.
Proof.
  unfold is_special. intros H. apply bool_decide_eq_true_1 in H.
  unfold SPECIAL_CHARACTERS, code_points in H. simpl in H.
  repeat (apply elem_of_cons in H as [->|H]; [reflexivity|]).
  apply elem_of_nil in H. contradiction.
Qed.

(** X4. What is never accepted: a password of fewer than eight characters,
    and a password made of ASCII letters and digits only, whatever its
    length. *)
Theorem is_strong_password_rejects u password :
  ((length password < 8)%nat -> is_strong_password u password = false) /\
  (forallb is_ascii_alnum password = true -> is_strong_password u password = false).
Proof.
  split.
  - intros Hlen. unfold is_strong_password.
    destruct (Z.ltb_spec (Z.of_nat (length password)) 8); [reflexivity|lia].
  - intros Hal. destruct (is_strong_password u password) eqn:Hs; [|reflexivity].
    apply is_strong_password_spec in Hs as (_ & _ & _ & _ & Hs).
    apply existsb_exists in Hs as (c & Hc & Hsp).
    rewrite forallb_forall in Hal. specialize (Hal c Hc).
    rewrite (special_not_alnum c Hsp) in Hal. discriminate.
Qed.

Lemma is_strong_password_extend_reorder_witness :
  is_strong_password {| unicode_isupper := fun _ => false;
                        unicode_islower := fun _ => false;
                        unicode_isdigit := fun _ => false |}
    (code_points "Passw0rd!" ++ code_points "-and-more") = true.
Proof.
  refine (proj1 (proj1 (is_strong_password_extend_reorder _ (code_points "Passw0rd!") _) _)).
  vm_compute. reflexivity.
Defined.

(** ** [app/utils/security.py]: tokens of a user *)







(** ** Translated failures *)

Lemma serve_translated rt settings api w0 app w1 request w exc w_r r :
  create_app rt settings api w0 = (inr app, w1) ->
  is_preflight request = false ->
  router app (arrival request w).1 (arrival request w).2 = (inl exc, w_r) ->
  translation exc = Some r ->
  exists resp w',
    serve rt settings api w0 request w = (inr resp, w') /\
    resp_status_code resp = resp_status_code r /\
    resp_body resp = resp_body r /\
    carries_core_headers (uuids w (uuid_calls w)) (resp_headers resp).
Proof.
  intros Happ Hpf Hr Ht.
  pose proof (serve_inner rt settings api w0 app w1 request w Happ) as Hs.
  rewrite inner_cases, Hr, Ht in Hs by (rewrite is_preflight_arrival; exact Hpf).
  destruct Hs as (pt & w' & Hs).
  eexists _, _. split; [exact Hs|].
  rewrite stamp_secure_status, stamp_secure_body, with_cors_status, with_cors_body.
  split; [reflexivity|]. split; [reflexivity|]. apply stamp_secure_headers.
Qed.



(** ** Routing *)






(** ** The log and the headers of a request *)








(** ** The routes of the application *)








(** ** Documentation pages *)










(** ** [app/utils/dependencies.py]: the current user *)

(** X16. A request routed to an endpoint that depends on
    [get_current_active_user]: without usable bearer credentials the
    endpoint is not called and the answer is 401 with the envelope
    "Authorization header required"; with bearer credentials the endpoint
    is called with the placeholder user, whatever the token says. *)
Theorem protected_endpoint rt settings api w0 app w1 request w endpoint :
  create_app rt settings api w0 = (inr app, w1) ->
  is_preflight request = false ->
  router app (arrival request w).1 (arrival request w).2
    = Depends_get_current_active_user endpoint (arrival request w).1 (arrival request w).2 ->
  match security request with
  | None =>
      exists resp w',
        serve rt settings api w0 request w = (inr resp, w') /\
        resp_status_code resp = 401 /\
        resp_body resp =
          JSONBody (JDict {[ "error" := JBool true;
                             "message" := JStr "Authorization header required";
                             "details" := JDict ∅ ]}) /\
        carries_core_headers (uuids w (uuid_calls w)) (resp_headers resp)
  | Some _ =>
      router app (arrival request w).1 (arrival request w).2
      = endpoint (JDict {[ "user_id" := JInt 1; "username" := JStr "test_user" ]})
          (arrival request w).1 (arrival request w).2
  end.
Proof.
  intros Happ Hpf Hr.
  unfold Depends_get_current_active_user in Hr.
  change (security (arrival request w).1) with (security request) in Hr.
  destruct (security request) as [c|]; simpl in Hr.
  - exact Hr.
  - exact (serve_translated rt settings api w0 app w1 request w _ _ _ Happ Hpf Hr eq_refl).
Qed.

Lemma protected_endpoint_witness :
  (exists resp w',
     serve example_runtime default_settings [profile_route] example_world
       (example_request "GET" "/api/v1/me") example_world = (inr resp, w') /\
     resp_status_code resp = 401) /\
  (exists resp w',
     serve example_runtime default_settings [profile_route] example_world
       (with_authorization "Bearer not-a-token" (example_request "GET" "/api/v1/me"))
       example_world = (inr resp, w') /\
     resp_status_code resp = 200 /\
     resp_body resp =
       JSONBody (JDict {[ "user_id" := JInt 1; "username" := JStr "test_user" ]})).
Proof.
  split.
  - destruct (protected_endpoint example_runtime default_settings [profile_route]
                example_world _ _ (example_request "GET" "/api/v1/me") example_world
                (fun user => returns_json user) eq_refl eq_refl eq_refl)
      as (resp & w' & Hs & Hst & _).
    exists resp, w'. split; [exact Hs|exact Hst].
  - eexists _, _. split; [vm_compute; reflexivity|]. split; reflexivity.
Defined.

(** ** [app/core/database.py]: the session generator *)

Lemma get_async_session_resume_calls session sg ops :
  (get_async_session_resume session sg ops).2
  = ops ++ match sg with
           | Throw (Exc _) => [OpRollback; OpClose; OpClose]
           | _ => [OpClose; OpClose]
           end.
Proof.
  unfold get_async_session_resume, async_with, try_finally, try_except_Exception,
    then_, await, raise_, yield_, pass.
  destruct sg as [|[exc|name]|]; simpl;
    repeat match goal with
           | |- context [session_raises ?s ?o ?p] =>
               destruct (session_raises s o p); simpl
           end;
    rewrite <- ?app_assoc; reflexivity.
Qed.

(** X17. Whatever continues [get_async_session] after its [yield], and
    whichever calls on the session fail, the session is rolled back
    exactly when an [Exception] was thrown in, and then closed twice (by
    the [finally] clause and by the [async with] statement); it is never
    committed. *)
Theorem session_cleanup_calls session sg ops :
  exists calls,
    (get_async_session_resume session sg ops).2 = ops ++ calls /\
    calls = match sg with
            | Throw (Exc _) => [OpRollback; OpClose; OpClose]
            | _ => [OpClose; OpClose]
            end /\
    OpCommit ∉ calls.
Proof.
  eexists. split; [apply get_async_session_resume_calls|]. split; [reflexivity|].
  destruct sg as [|[exc|name]|]; rewrite !not_elem_of_cons;
    repeat split; try discriminate; apply not_elem_of_nil.
Qed.

(** X18. On a session whose calls succeed, [get_async_session] passes on
    what was thrown into it unchanged, and runs to its end when it is
    asked for its next item. *)
Theorem session_generator_outcome session sg ops :
  healthy session ->
  (get_async_session_resume session sg ops).1 = (yield_ sg ops).1.
Proof.
  intros H.
  unfold get_async_session_resume, async_with, try_finally, try_except_Exception,
    then_, await, raise_, yield_, pass.
  destruct sg as [|[exc|name]|]; simpl; rewrite ?H; simpl; rewrite ?H; reflexivity.
Qed.

Lemma session_generator_outcome_witness :
  (get_async_session_resume healthy_session
     (Throw (Exc (EOther "ValueError" "bad input"))) []).1
  = Some (Exc (EOther "ValueError" "bad input")).
Proof.
  apply (session_generator_outcome healthy_session
           (Throw (Exc (EOther "ValueError" "bad input"))) []).
  intros ops op. reflexivity.
Defined.

(** X19. Through [get_db] the rollback branch is never reached: asked for its
    next item, [get_db] lets the session generator run to its end; an
    exception thrown into [get_db] leaves it at once, with no call on the
    session, and the session generator, still suspended, is closed
    without rollback when it is finalized.  Without a configured
    database [get_db] raises the [RuntimeError] of [get_async_session]
    before any session exists. *)
Theorem get_db_never_rolls_back session sg ops :
  (sg <> Next -> (get_db_resume session sg ops).1 = yield_ sg ops) /\
  (finalize (get_db_resume session sg ops).2 (get_db_resume session sg ops).1.2).2
  = ops ++ [OpClose; OpClose] /\
  get_db_start None = inl (Exc (EOther "RuntimeError" "Database not configured")).
Proof.
  split; [|split].
  - destruct sg; [congruence|reflexivity|reflexivity].
  - destruct sg as [|e|]; simpl.
    + apply (get_async_session_resume_calls session Next ops).
    + apply (get_async_session_resume_calls session Aclose ops).
    + apply (get_async_session_resume_calls session Aclose ops).
  - reflexivity.
Qed.
